(** * KucoinInFlightOrder: the in-flight order record of the Kucoin connector

    Shallow embedding of
    [hummingbot/connector/exchange/kucoin/kucoin_in_flight_order.pyx]:
    the record, its four status predicates and the [from_json] factory,
    with Python's exceptions made explicit in an error monad. *)

From Stdlib Require Import ZArith NArith Ascii String List.
From stdpp Require Import base option gmap strings list fin_maps.

Local Open Scope string_scope.

(** ** Python prelude *)

(** The exceptions the fragment can raise.  [KeyError] comes from
    [data[k]], [AttributeError] from [getattr] on an enum class,
    [InvalidOperation] is [decimal.InvalidOperation] raised by [Decimal(text)]
    on malformed text, [TypeError] is raised when a value of the wrong kind
    reaches [getattr], [Decimal] or a field declared [str]. *)
Inductive exn : Type :=
| KeyError (key : string)
| AttributeError (name : string)
| InvalidOperation
| TypeError.

(** A computation either returns a value or raises. *)
Inductive result (A : Type) : Type :=
| Ok (a : A)
| Raise (e : exn).
Arguments Ok {A} a.
Arguments Raise {A} e.

#[global] Instance result_ret : MRet result := λ A a, Ok a.
#[global] Instance result_bind : MBind result := λ A B f m,
  match m with
  | Ok a => f a
  | Raise e => Raise e
  end.

(** A Python [Enum] class as [getattr] sees it.  [E] is the type of what
    attribute lookup on the class object can yield: the members of the enum,
    listed in [members] with [member_name m] for [m.name], and the values of
    the other attributes of the class object (every class has [__doc__],
    [__name__], [__module__], an [Enum] also [__members__]), listed by name
    in [class_attributes].  [OrderType] and [TradeType] are declared in
    [hummingbot.core.event.events], outside this fragment, so the factory is
    embedded over any enum with this interface. *)
Class PyEnum (E : Type) : Type := {
  members : list E;
  member_name : E → string;
  class_attributes : list (string * E);
}.
#[global] Hint Mode PyEnum ! : typeclass_instances.

(** [getattr(E, s)]: the member called [s], or else the value of the class
    attribute called [s]; [AttributeError] when the class has neither.  (No
    member can carry the name of another attribute of its class, so which of
    the two is tried first makes no difference.) *)
Definition getattr {E} `{PyEnum E} (s : string) : result E :=
  match find (λ m, String.eqb (member_name m) s) members with
  | Some m => Ok m
  | None =>
      match find (λ a, String.eqb a.1 s) class_attributes with
      | Some a => Ok a.2
      | None => Raise (AttributeError s)
      end
  end.

(** What Python guarantees of an [Enum]: no two members share a name. *)
Definition EnumLawful (E : Type) `{PyEnum E} : Prop :=
  ∀ m1 m2 : E,
    m1 ∈ members → m2 ∈ members → member_name m1 = member_name m2 → m1 = m2.

(** The part of [decimal.Decimal] the factory uses: construction from text,
    which fails on malformed text, and from an integer, which is exact. *)
Class PyDecimal (D : Type) : Type := {
  Decimal_of_str : string → option D;
  Decimal_of_int : Z → D;
}.
#[global] Hint Mode PyDecimal ! : typeclass_instances.

Section KucoinInFlightOrder.
Context {OrderType TradeType Decimal : Type}.
Context {OrderType_py : PyEnum OrderType} {TradeType_py : PyEnum TradeType}.
Context {Decimal_py : PyDecimal Decimal}.

(** The values a snapshot holds ([Dict[str, Any]]): [None], text, integers
    and decimals. *)
Inductive pyval : Type :=
| PyNone
| PyStr (s : string)
| PyInt (n : Z)
| PyDec (d : Decimal).

(** [data[k]]. *)
Definition getitem (data : gmap string pyval) (k : string) : result pyval :=
  match data !! k with
  | Some v => Ok v
  | None => Raise (KeyError k)
  end.

(** [getattr(E, v)]: the attribute name must be text. *)
Definition getattr_val {E} `{PyEnum E} (v : pyval) : result E :=
  match v with
  | PyStr s => getattr s
  | _ => Raise TypeError
  end.

(** [Decimal(v)]. *)
Definition Decimal_new (v : pyval) : result Decimal :=
  match v with
  | PyStr s =>
      match Decimal_of_str s with
      | Some d => Ok d
      | None => Raise InvalidOperation
      end
  | PyInt n => Ok (Decimal_of_int n)
  | PyDec d => Ok d
  | PyNone => Raise TypeError
  end.

(** A value bound to a name declared [str]. *)
Definition as_str (v : pyval) : result string :=
  match v with
  | PyStr s => Ok s
  | _ => Raise TypeError
  end.

(** A value bound to a name declared [Optional[str]]. *)
Definition as_optional_str (v : pyval) : result (option string) :=
  match v with
  | PyStr s => Ok (Some s)
  | PyNone => Ok None
  | _ => Raise TypeError
  end.

Definition of_optional_str (o : option string) : pyval :=
  match o with
  | Some s => PyStr s
  | None => PyNone
  end.

(** ** The record *)

Record KucoinInFlightOrder : Type := {
  client_order_id : string;
  exchange_order_id : option string;
  trading_pair : string;
  order_type : OrderType;
  trade_type : TradeType;
  price : Decimal;
  amount : Decimal;
  executed_amount_base : Decimal;
  executed_amount_quote : Decimal;
  fee_asset : option string;
  fee_paid : Decimal;
  last_state : string;
}.

(** Modelled from the spec: the constructor of [InFlightOrderBase]
    ([hummingbot/connector/in_flight_order_base], not part of this
    fragment).  It stores its eight arguments, [initial_state] becoming
    [last_state].  The cumulative amounts and the fee start at zero and no
    fee asset is known yet; [from_json] overwrites all four, and nothing
    proved below depends on these initial values. *)
Definition InFlightOrderBase_init
    (client_order_id : string) (exchange_order_id : option string)
    (trading_pair : string) (order_type : OrderType) (trade_type : TradeType)
    (price amount : Decimal) (initial_state : string) : KucoinInFlightOrder :=
  {| client_order_id := client_order_id;
     exchange_order_id := exchange_order_id;
     trading_pair := trading_pair;
     order_type := order_type;
     trade_type := trade_type;
     price := price;
     amount := amount;
     executed_amount_base := Decimal_of_int 0;
     executed_amount_quote := Decimal_of_int 0;
     fee_asset := None;
     fee_paid := Decimal_of_int 0;
     last_state := initial_state |}.

(** [KucoinInFlightOrder.__init__].  [initial_state] is [None] when the
    caller leaves the argument out, and then defaults to ["LOCAL"]. *)
Definition KucoinInFlightOrder_init
    (client_order_id : string) (exchange_order_id : option string)
    (trading_pair : string) (order_type : OrderType) (trade_type : TradeType)
    (price amount : Decimal) (initial_state : option string)
    : KucoinInFlightOrder :=
  InFlightOrderBase_init client_order_id exchange_order_id trading_pair
    order_type trade_type price amount (default "LOCAL" initial_state).

(** Attribute assignments [self.f = v]. *)
Definition set_executed_amount_base (v : Decimal) (self : KucoinInFlightOrder) :=
  {| client_order_id := client_order_id self;
     exchange_order_id := exchange_order_id self;
     trading_pair := trading_pair self;
     order_type := order_type self;
     trade_type := trade_type self;
     price := price self;
     amount := amount self;
     executed_amount_base := v;
     executed_amount_quote := executed_amount_quote self;
     fee_asset := fee_asset self;
     fee_paid := fee_paid self;
     last_state := last_state self |}.

Definition set_executed_amount_quote (v : Decimal) (self : KucoinInFlightOrder) :=
  {| client_order_id := client_order_id self;
     exchange_order_id := exchange_order_id self;
     trading_pair := trading_pair self;
     order_type := order_type self;
     trade_type := trade_type self;
     price := price self;
     amount := amount self;
     executed_amount_base := executed_amount_base self;
     executed_amount_quote := v;
     fee_asset := fee_asset self;
     fee_paid := fee_paid self;
     last_state := last_state self |}.

Definition set_fee_asset (v : option string) (self : KucoinInFlightOrder) :=
  {| client_order_id := client_order_id self;
     exchange_order_id := exchange_order_id self;
     trading_pair := trading_pair self;
     order_type := order_type self;
     trade_type := trade_type self;
     price := price self;
     amount := amount self;
     executed_amount_base := executed_amount_base self;
     executed_amount_quote := executed_amount_quote self;
     fee_asset := v;
     fee_paid := fee_paid self;
     last_state := last_state self |}.

Definition set_fee_paid (v : Decimal) (self : KucoinInFlightOrder) :=
  {| client_order_id := client_order_id self;
     exchange_order_id := exchange_order_id self;
     trading_pair := trading_pair self;
     order_type := order_type self;
     trade_type := trade_type self;
     price := price self;
     amount := amount self;
     executed_amount_base := executed_amount_base self;
     executed_amount_quote := executed_amount_quote self;
     fee_asset := fee_asset self;
     fee_paid := v;
     last_state := last_state self |}.

Definition set_last_state (v : string) (self : KucoinInFlightOrder) :=
  {| client_order_id := client_order_id self;
     exchange_order_id := exchange_order_id self;
     trading_pair := trading_pair self;
     order_type := order_type self;
     trade_type := trade_type self;
     price := price self;
     amount := amount self;
     executed_amount_base := executed_amount_base self;
     executed_amount_quote := executed_amount_quote self;
     fee_asset := fee_asset self;
     fee_paid := fee_paid self;
     last_state := v |}.

(** ** Status predicates: [self.last_state in {...}] *)

Definition is_done (self : KucoinInFlightOrder) : bool :=
  bool_decide (last_state self ∈ ({["DONE"; "CANCEL"]} : gset string)).

Definition is_failure (self : KucoinInFlightOrder) : bool :=
  bool_decide (last_state self ∈ ({["CANCEL"]} : gset string)).

Definition is_cancelled (self : KucoinInFlightOrder) : bool :=
  bool_decide (last_state self ∈ ({["CANCEL"]} : gset string)).

Definition is_local (self : KucoinInFlightOrder) : bool :=
  bool_decide (last_state self ∈ ({["LOCAL"]} : gset string)).

(** ** The snapshot factory *)

(** The declaration of [retval] in [from_json]: the keyword arguments are
    evaluated in the order written, then the constructor is called.  The
    class is a Cython extension type with typed parameters, so the call is
    when the values bound to [str] and [Optional[str]] parameters are
    checked. *)
Definition from_json_construct (data : gmap string pyval)
    : result KucoinInFlightOrder :=
  a_client_order_id ← getitem data "client_order_id";
  a_exchange_order_id ← getitem data "exchange_order_id";
  a_trading_pair ← getitem data "trading_pair";
  a_order_type ← getitem data "order_type" ≫= getattr_val;
  a_trade_type ← getitem data "trade_type" ≫= getattr_val;
  a_price ← getitem data "price" ≫= Decimal_new;
  a_amount ← getitem data "amount" ≫= Decimal_new;
  a_initial_state ← getitem data "last_state";
  client_order_id ← as_str a_client_order_id;
  exchange_order_id ← as_optional_str a_exchange_order_id;
  trading_pair ← as_str a_trading_pair;
  initial_state ← as_str a_initial_state;
  mret (KucoinInFlightOrder_init client_order_id exchange_order_id
          trading_pair a_order_type a_trade_type a_price a_amount
          (Some initial_state)).

(** The five assignments that follow the construction. *)
Definition from_json_restore (data : gmap string pyval)
    (retval : KucoinInFlightOrder) : result KucoinInFlightOrder :=
  v ← getitem data "executed_amount_base" ≫= Decimal_new;
  let retval := set_executed_amount_base v retval in
  v ← getitem data "executed_amount_quote" ≫= Decimal_new;
  let retval := set_executed_amount_quote v retval in
  v ← getitem data "fee_asset" ≫= as_optional_str;
  let retval := set_fee_asset v retval in
  v ← getitem data "fee_paid" ≫= Decimal_new;
  let retval := set_fee_paid v retval in
  v ← getitem data "last_state" ≫= as_str;
  let retval := set_last_state v retval in
  mret retval.

Definition from_json (data : gmap string pyval) : result KucoinInFlightOrder :=
  from_json_construct data ≫= from_json_restore data.

(** ** Vocabulary of the properties *)

(** The twelve keys of a snapshot, and those read through [Decimal]. *)
Definition snapshot_keys : list string :=
  ["client_order_id"; "exchange_order_id"; "trading_pair"; "order_type";
   "trade_type"; "price"; "amount"; "last_state"; "executed_amount_base";
   "executed_amount_quote"; "fee_asset"; "fee_paid"].

Definition decimal_keys : list string :=
  ["price"; "amount"; "executed_amount_base"; "executed_amount_quote";
   "fee_paid"].

(** [x] is what key [k] of the snapshot holds, read through [conv]. *)
Definition reads {A} (data : gmap string pyval) (k : string)
    (conv : pyval → result A) (x : A) : Prop :=
  ∃ v, data !! k = Some v ∧ conv v = Ok x.

(** Every field of [r] is populated from the snapshot [data]. *)
Definition populated_from (data : gmap string pyval)
    (r : KucoinInFlightOrder) : Prop :=
  reads data "client_order_id" as_str (client_order_id r)
  ∧ reads data "exchange_order_id" as_optional_str (exchange_order_id r)
  ∧ reads data "trading_pair" as_str (trading_pair r)
  ∧ reads data "order_type" getattr_val (order_type r)
  ∧ reads data "trade_type" getattr_val (trade_type r)
  ∧ reads data "price" Decimal_new (price r)
  ∧ reads data "amount" Decimal_new (amount r)
  ∧ reads data "last_state" as_str (last_state r)
  ∧ reads data "executed_amount_base" Decimal_new (executed_amount_base r)
  ∧ reads data "executed_amount_quote" Decimal_new (executed_amount_quote r)
  ∧ reads data "fee_asset" as_optional_str (fee_asset r)
  ∧ reads data "fee_paid" Decimal_new (fee_paid r).

(** The mapping a caller builds from the current field values of [r], with
    the documented key set: text fields as they are, enum members by name,
    decimal fields through [enc] (the decimal itself, or a text for it). *)
Definition snapshot_with (enc : Decimal → pyval) (r : KucoinInFlightOrder)
    : gmap string pyval :=
  <["client_order_id" := PyStr (client_order_id r)]> (
  <["exchange_order_id" := of_optional_str (exchange_order_id r)]> (
  <["trading_pair" := PyStr (trading_pair r)]> (
  <["order_type" := PyStr (member_name (order_type r))]> (
  <["trade_type" := PyStr (member_name (trade_type r))]> (
  <["price" := enc (price r)]> (
  <["amount" := enc (amount r)]> (
  <["last_state" := PyStr (last_state r)]> (
  <["executed_amount_base" := enc (executed_amount_base r)]> (
  <["executed_amount_quote" := enc (executed_amount_quote r)]> (
  <["fee_asset" := of_optional_str (fee_asset r)]> (
  <["fee_paid" := enc (fee_paid r)]> ∅))))))))))).

(** The snapshot is well formed apart from the texts of its decimal fields:
    the other seven keys are present and hold values the factory accepts, and
    each decimal key holds some value other than [None] (text, an integer or
    a decimal). *)
Definition well_formed_apart_from_decimals (data : gmap string pyval) : Prop :=
  (∃ s, data !! "client_order_id" = Some (PyStr s))
  ∧ (∃ o, data !! "exchange_order_id" = Some (of_optional_str o))
  ∧ (∃ s, data !! "trading_pair" = Some (PyStr s))
  ∧ (∃ m : OrderType, reads data "order_type" getattr_val m)
  ∧ (∃ m : TradeType, reads data "trade_type" getattr_val m)
  ∧ (∃ s, data !! "last_state" = Some (PyStr s))
  ∧ (∃ o, data !! "fee_asset" = Some (of_optional_str o))
  ∧ (∀ k, k ∈ decimal_keys → ∃ v, data !! k = Some v ∧ v ≠ PyNone).

End KucoinInFlightOrder.

Arguments pyval : clear implicits.
Arguments KucoinInFlightOrder : clear implicits.

(** ** The order of evaluation *)

Section EvaluationOrder.
Context {OrderType TradeType Decimal : Type}.
Context {OrderType_py : PyEnum OrderType} {TradeType_py : PyEnum TradeType}.
Context {Decimal_py : PyDecimal Decimal}.

(** Whether a conversion goes through, its value forgotten. *)
Definition accepts {A} (conv : pyval Decimal → result A)
    (v : pyval Decimal) : result unit :=
  conv v ≫= λ _, mret ().

(** The keyword arguments of the constructor call in [from_json], in the
    order written: the key looked up and the conversion applied to its value
    on the spot, if any. *)
Definition argument_steps : list (string * (pyval Decimal → result unit)) :=
  [("client_order_id", λ _, mret ());
   ("exchange_order_id", λ _, mret ());
   ("trading_pair", λ _, mret ());
   ("order_type", accepts (getattr_val (E := OrderType)));
   ("trade_type", accepts (getattr_val (E := TradeType)));
   ("price", accepts Decimal_new);
   ("amount", accepts Decimal_new);
   ("last_state", λ _, mret ())].

(** Evaluating one argument: [data[k]], then its conversion. *)
Definition run_step (data : gmap string (pyval Decimal))
    (step : string * (pyval Decimal → result unit)) : result unit :=
  getitem data step.1 ≫= step.2.

End EvaluationOrder.

(** ** A concrete instance

    Enums and decimals on which the general results are run. *)

Module events.

(** Modelled from the spec: the members of [OrderType] and [TradeType]
    ([hummingbot.core.event.events], not part of this fragment) that the
    data model lists, [{LIMIT, MARKET, ...}] and [{BUY, SELL}].  Beside the
    members, each type holds the values of the other attributes of its class
    object, told apart by the attribute's name; they are no members and
    have no [name] of their own. *)
Inductive OrderType : Type :=
| LIMIT
| MARKET
| OrderType_attribute (attribute : string).

Inductive TradeType : Type :=
| BUY
| SELL
| TradeType_attribute (attribute : string).

(** Attributes that the class object of every Python [Enum] has. *)
Definition enum_class_attributes : list string :=
  ["__doc__"; "__members__"; "__module__"; "__name__"].

#[global] Instance OrderType_enum : PyEnum OrderType := {|
  members := [LIMIT; MARKET];
  member_name m :=
    match m with
    | LIMIT => "LIMIT"
    | MARKET => "MARKET"
    | OrderType_attribute _ => ""
    end;
  class_attributes :=
    map (λ a, (a, OrderType_attribute a)) enum_class_attributes;
|}.

#[global] Instance TradeType_enum : PyEnum TradeType := {|
  members := [BUY; SELL];
  member_name m :=
    match m with
    | BUY => "BUY"
    | SELL => "SELL"
    | TradeType_attribute _ => ""
    end;
  class_attributes :=
    map (λ a, (a, TradeType_attribute a)) enum_class_attributes;
|}.

End events.

Module decimal.

(** A decimal as Python represents it: a sign, a coefficient and an
    exponent, or one of the special values. *)
Inductive Decimal : Type :=
| Finite (sign : bool) (coefficient : N) (exponent : Z)
| Infinity (sign : bool)
| NaN (sign : bool) (signaling : bool) (payload : N).

Definition is_digit (c : ascii) : bool :=
  let n := nat_of_ascii c in (48 <=? n)%nat && (n <=? 57)%nat.

(** The ASCII characters [str.strip] removes. *)
Definition is_space (c : ascii) : bool :=
  let n := nat_of_ascii c in
  (9 <=? n)%nat && (n <=? 13)%nat || (28 <=? n)%nat && (n <=? 32)%nat.

Definition lower (c : ascii) : ascii :=
  let n := nat_of_ascii c in
  if (65 <=? n)%nat && (n <=? 90)%nat then ascii_of_nat (n + 32) else c.

Fixpoint lstrip (l : list ascii) : list ascii :=
  match l with
  | c :: r => if is_space c then lstrip r else l
  | [] => []
  end.

Definition strip (l : list ascii) : list ascii :=
  rev (lstrip (rev (lstrip l))).

Fixpoint span_digits (l : list ascii) : list ascii * list ascii :=
  match l with
  | c :: r =>
      if is_digit c then let '(ds, rest) := span_digits r in (c :: ds, rest)
      else ([], l)
  | [] => ([], [])
  end.

Definition digits_value (ds : list ascii) : N :=
  fold_left (λ acc c, 10 * acc + (N_of_ascii c - 48))%N ds 0%N.

Definition parse_sign (l : list ascii) : bool * list ascii :=
  match l with
  | "-"%char :: r => (true, r)
  | "+"%char :: r => (false, r)
  | _ => (false, l)
  end.

(** [[-+]?\d+] up to the end of the text. *)
Definition parse_exponent (l : list ascii) : option Z :=
  let '(neg, r) := parse_sign l in
  let '(ds, rest) := span_digits r in
  match ds, rest with
  | _ :: _, [] =>
      let e := Z.of_N (digits_value ds) in Some (if neg then (- e)%Z else e)
  | _, _ => None
  end.

(** A number with at least one digit: an integer part, an optional
    fractional part and an optional exponent. *)
Definition parse_number (sign : bool) (l : list ascii) : option Decimal :=
  let '(intpart, r1) := span_digits l in
  let '(fracpart, r2) :=
    match r1 with
    | "."%char :: r => span_digits r
    | _ => ([], r1)
    end in
  match (intpart ++ fracpart)%list with
  | [] => None
  | ds =>
      e ← match r2 with
          | [] => Some 0%Z
          | c :: r => if Ascii.eqb (lower c) "e" then parse_exponent r else None
          end;
      Some (Finite sign (digits_value ds) (e - Z.of_nat (length fracpart)))
  end.

(** [Inf], [Infinity], [NaN] and [sNaN], the last two with optional
    diagnostic digits; letters in either case. *)
Definition parse_special (sign : bool) (l : list ascii) : option Decimal :=
  let l := map lower l in
  if decide (l = list_ascii_of_string "inf"
             ∨ l = list_ascii_of_string "infinity") then Some (Infinity sign)
  else
    let '(signaling, r) :=
      match l with
      | "s"%char :: r => (true, r)
      | _ => (false, l)
      end in
    match r with
    | "n"%char :: "a"%char :: "n"%char :: diag =>
        let '(ds, rest) := span_digits diag in
        match rest with
        | [] => Some (NaN sign signaling (digits_value ds))
        | _ => None
        end
    | _ => None
    end.

(** [Decimal(text)] for plain ASCII text: surrounding white space is
    stripped and underscores are dropped before the text is matched.  Digits
    and white space outside ASCII, which Python also accepts, are not
    recognised, and the exponent is not bounded, where Python refuses one
    beyond its largest; the results below hold for any [Decimal_of_str] and
    use this one on short plain texts only. *)
Definition of_str (s : string) : option Decimal :=
  let l := filter (λ c, c ≠ "_"%char) (strip (list_ascii_of_string s)) in
  let '(sign, r) := parse_sign l in
  match parse_number sign r with
  | Some d => Some d
  | None => parse_special sign r
  end.

(** [Decimal(n)] for an integer [n]. *)
Definition of_int (n : Z) : Decimal :=
  Finite (n <? 0)%Z (Z.abs_N n) 0.

#[global] Instance Decimal_model : PyDecimal Decimal := {|
  Decimal_of_str := of_str;
  Decimal_of_int := of_int;
|}.

End decimal.


(** ** The worked scenario *)

Abbreviation Order :=
  (KucoinInFlightOrder events.OrderType events.TradeType decimal.Decimal).

(** A limit buy of 2.0 ETH at 10.00 USDT, as first constructed. *)
Definition fresh_order : Order :=
  KucoinInFlightOrder_init "C1" None "ETH-USDT" events.LIMIT events.BUY
    (decimal.Finite false 1000 (-2)) (decimal.Finite false 20 (-1)) None.

(** The same order after updates: 1.5 filled, a fee of 0.01 paid, partially
    filled. *)
Definition example_order : Order :=
  set_last_state "partial-filled"
    (set_fee_paid (decimal.Finite false 1 (-2))
       (set_executed_amount_base (decimal.Finite false 15 (-1)) fresh_order)).

(** A snapshot of it with every decimal written as text. *)
Definition example_snapshot : gmap string (pyval decimal.Decimal) :=
  <["client_order_id" := PyStr "C1"]> (
  <["exchange_order_id" := PyNone]> (
  <["trading_pair" := PyStr "ETH-USDT"]> (
  <["order_type" := PyStr "LIMIT"]> (
  <["trade_type" := PyStr "BUY"]> (
  <["price" := PyStr "10.00"]> (
  <["amount" := PyStr "2.0"]> (
  <["last_state" := PyStr "partial-filled"]> (
  <["executed_amount_base" := PyStr "1.5"]> (
  <["executed_amount_quote" := PyStr "0"]> (
  <["fee_asset" := PyNone]> (
  <["fee_paid" := PyStr "0.01"]> ∅))))))))))).

(** The snapshot with an order type that is no member of the enum. *)
Definition snapshot_unknown_order_type : gmap string (pyval decimal.Decimal) :=
  <["order_type" := PyStr "NOT_A_TYPE"]> example_snapshot.

(** The snapshot with a price that is no decimal. *)
Definition snapshot_malformed_price : gmap string (pyval decimal.Decimal) :=
  <["price" := PyStr "abc"]> example_snapshot.

(** The snapshot with a fee that is no decimal; the fee is read after the
    record has been constructed. *)
Definition snapshot_malformed_fee : gmap string (pyval decimal.Decimal) :=
  <["fee_paid" := PyStr "abc"]> example_snapshot.

(** The snapshot without its fee. *)
Definition snapshot_without_fee : gmap string (pyval decimal.Decimal) :=
  delete "fee_paid" example_snapshot.

(** * Properties *)

(** Case analysis on which key of an explicit list [k] is. *)
Ltac each_key Hk :=
  repeat (apply elem_of_cons in Hk as [->|Hk]); [..|by apply elem_of_nil in Hk].

Section Properties.
Context {OrderType TradeType Decimal : Type}.
Context {OrderType_py : PyEnum OrderType} {TradeType_py : PyEnum TradeType}.
Context {Decimal_py : PyDecimal Decimal}.

Local Abbreviation order := (KucoinInFlightOrder OrderType TradeType Decimal).
Local Abbreviation snapshot := (gmap string (pyval Decimal)).

(** *** The error monad *)

Lemma bind_Ok_inv {A B} (m : result A) (f : A → result B) (b : B) :
  m ≫= f = Ok b → ∃ a, m = Ok a ∧ f a = Ok b.
Proof. destruct m as [a|e]; cbn; [eauto | discriminate]. Qed.

Lemma getitem_Ok (data : snapshot) k v :
  getitem data k = Ok v ↔ data !! k = Some v.
Proof.
  unfold getitem. destruct (data !! k); split; intros E; by inversion E.
Qed.

Lemma as_str_Ok (v : pyval Decimal) s : as_str v = Ok s ↔ v = PyStr s.
Proof. destruct v; cbn; split; intros E; by inversion E. Qed.

Lemma as_optional_str_Ok (v : pyval Decimal) o :
  as_optional_str v = Ok o ↔ v = of_optional_str o.
Proof.
  destruct v, o; cbn; split; intros E; by inversion E.
Qed.

Lemma reads_bind {A} (data : snapshot) k (conv : pyval Decimal → result A) x :
  reads data k conv x ↔ getitem data k ≫= conv = Ok x.
Proof.
  split.
  - intros (v & Hk & Hv). apply getitem_Ok in Hk. by rewrite Hk.
  - intros (v & Hk & Hv)%bind_Ok_inv. apply getitem_Ok in Hk. by exists v.
Qed.

(** *** The factory returns exactly the records populated from the snapshot *)

Lemma from_json_Ok_inv (data : snapshot) (r : order) :
  from_json data = Ok r → populated_from data r.
Proof.
  unfold from_json, from_json_construct, from_json_restore.
  intros E.
  repeat match goal with
         | H : _ ≫= _ = Ok _ |- _ => apply bind_Ok_inv in H as (? & ? & H)
         end.
  repeat match goal with
         | H : getitem _ _ = Ok _ |- _ => apply getitem_Ok in H
         end.
  repeat match goal with
         | H : mret _ = Ok _ |- _ => injection H as <-
         end.
  unfold populated_from, reads.
  repeat apply conj; eexists; (split; [eassumption | done]).
Qed.

Lemma from_json_Ok_intro (data : snapshot) (r : order) :
  populated_from data r → from_json data = Ok r.
Proof.
  intros (Hcid & Heid & Htp & Hot & Htt & Hp & Ha & Hls & Hb & Hq & Hfa & Hfp).
  destruct Hcid as (? & Hcid & ->%as_str_Ok).
  destruct Heid as (? & Heid & ->%as_optional_str_Ok).
  destruct Htp as (? & Htp & ->%as_str_Ok).
  destruct Hls as (? & Hls & ->%as_str_Ok).
  apply reads_bind in Hot, Htt, Hp, Ha, Hb, Hq, Hfa, Hfp.
  apply getitem_Ok in Hcid, Heid, Htp, Hls.
  unfold from_json, from_json_construct, from_json_restore.
  rewrite Hcid, Heid, Htp, Hot, Htt, Hp, Ha, Hls, Hb, Hq, Hfa, Hfp. cbn.
  destruct r, exchange_order_id0; reflexivity.
Qed.

(** *** Status predicates *)

Lemma is_done_eqb (self : order) :
  is_done self
  = String.eqb (last_state self) "DONE" || String.eqb (last_state self) "CANCEL".
Proof.
  unfold is_done.
  destruct (String.eqb_spec (last_state self) "DONE") as [->|Hd]; cbn.
  { apply bool_decide_eq_true, elem_of_union_l, elem_of_singleton. done. }
  destruct (String.eqb_spec (last_state self) "CANCEL") as [->|Hc]; cbn.
  { apply bool_decide_eq_true, elem_of_union_r, elem_of_singleton. done. }
  apply bool_decide_eq_false.
  rewrite elem_of_union, !elem_of_singleton. tauto.
Qed.

Lemma in_singleton_eqb (s lit : string) :
  bool_decide (s ∈ ({[lit]} : gset string)) = String.eqb s lit.
Proof.
  destruct (String.eqb_spec s lit) as [->|Hne].
  - by apply bool_decide_eq_true, elem_of_singleton.
  - by apply bool_decide_eq_false; rewrite elem_of_singleton.
Qed.

Lemma is_failure_eqb (self : order) :
  is_failure self = String.eqb (last_state self) "CANCEL".
Proof. apply in_singleton_eqb. Qed.

Lemma is_cancelled_eqb (self : order) :
  is_cancelled self = String.eqb (last_state self) "CANCEL".
Proof. apply in_singleton_eqb. Qed.

Lemma is_local_eqb (self : order) :
  is_local self = String.eqb (last_state self) "LOCAL".
Proof. apply in_singleton_eqb. Qed.

(** C2. [is_done] is true exactly when [last_state] is ["DONE"] or
    ["CANCEL"]; whatever the other fields, it is false once [last_state] is
    ["filled"], ["partial-canceled"], ["LOCAL"] or ["partial-filled"]. *)
Theorem is_done_iff (self : order) :
  (is_done self = true ↔ last_state self = "DONE" ∨ last_state self = "CANCEL")
  ∧ is_done (set_last_state "filled" self) = false
  ∧ is_done (set_last_state "partial-canceled" self) = false
  ∧ is_done (set_last_state "LOCAL" self) = false
  ∧ is_done (set_last_state "partial-filled" self) = false.
Proof.
  split; [|by rewrite !is_done_eqb].
  rewrite is_done_eqb, orb_true_iff, !String.eqb_eq. tauto.
Qed.

(** C3. [is_failure] and [is_cancelled] always agree, and each is true
    exactly when [last_state] is ["CANCEL"]. *)
Theorem is_failure_is_cancelled (self : order) :
  is_failure self = is_cancelled self
  ∧ (is_failure self = true ↔ last_state self = "CANCEL")
  ∧ (is_cancelled self = true ↔ last_state self = "CANCEL").
Proof.
  rewrite is_failure_eqb, is_cancelled_eqb, String.eqb_eq. tauto.
Qed.

(** C7. A record constructed without [initial_state] has [last_state]
    ["LOCAL"], is local and is not done; in general [is_local] is true exactly
    when [last_state] is ["LOCAL"]. *)
Theorem default_initial_state_is_local
    (cid : string) (eid : option string) (pair : string) (ot : OrderType)
    (tt : TradeType) (p a : Decimal) (self : order) :
  last_state (KucoinInFlightOrder_init cid eid pair ot tt p a None) = "LOCAL"
  ∧ is_local (KucoinInFlightOrder_init cid eid pair ot tt p a None) = true
  ∧ is_done (KucoinInFlightOrder_init cid eid pair ot tt p a None) = false
  ∧ (is_local self = true ↔ last_state self = "LOCAL").
Proof.
  split; [reflexivity|].
  split; [by rewrite is_local_eqb|].
  split; [by rewrite is_done_eqb|].
  by rewrite is_local_eqb, String.eqb_eq.
Qed.

(** *** Enum lookup *)

Lemma getattr_member_name {E} `{PyEnum E} (m : E) :
  EnumLawful E → m ∈ members → getattr (member_name m) = Ok m.
Proof.
  intros Hinj Hm. unfold getattr.
  destruct (find _ members) as [m'|] eqn:Hfind.
  - apply find_some in Hfind as [Hm'%list_elem_of_In Heq%String.eqb_eq].
    by rewrite (Hinj _ _ Hm' Hm Heq).
  - apply find_none with (x := m) in Hfind.
    + by rewrite String.eqb_refl in Hfind.
    + by apply list_elem_of_In.
Qed.

Lemma getattr_unknown {E} `{PyEnum E} (s : string) :
  (∀ m : E, m ∈ members → member_name m ≠ s) →
  (∀ a : string * E, a ∈ class_attributes → a.1 ≠ s) →
  getattr (E := E) s = Raise (AttributeError s).
Proof.
  intros Hno Hnone. unfold getattr.
  destruct (find _ members) as [m|] eqn:Hfind.
  { apply find_some in Hfind as [Hin Heq%String.eqb_eq].
    by apply list_elem_of_In, Hno in Hin. }
  destruct (find _ class_attributes) as [a|] eqn:Hattr; [|done].
  apply find_some in Hattr as [Hin Heq%String.eqb_eq].
  by apply list_elem_of_In, Hnone in Hin.
Qed.

(** *** Restoring a snapshot *)

(** The mapping built from a record has the documented key set. *)
Lemma snapshot_with_keys (enc : Decimal → pyval Decimal) (r : order) :
  dom (snapshot_with enc r) = list_to_set snapshot_keys.
Proof.
  unfold snapshot_with, snapshot_keys.
  rewrite !dom_insert_L, dom_empty_L. cbn.
  by rewrite !(assoc_L (∪)).
Qed.

Lemma set_last_state_id (self : order) :
  set_last_state (last_state self) self = self.
Proof. by destruct self. Qed.

(** C1. Round trip: the mapping built from the current field values of any
    record [r] whose order and trade types are members of their enums, with
    the documented key set, restores to [r] itself.  The decimal fields may
    be stored in any form [enc] that [Decimal] reads back (the decimal
    itself, or a text for it); enum members are stored by name. *)
Theorem from_json_round_trip (enc : Decimal → pyval Decimal) (r : order) :
  EnumLawful OrderType → EnumLawful TradeType →
  order_type r ∈ members → trade_type r ∈ members →
  (∀ d, Decimal_new (enc d) = Ok d) →
  from_json (snapshot_with enc r) = Ok r.
Proof.
  intros HO HT HrO HrT Henc. apply from_json_Ok_intro.
  unfold populated_from, reads, snapshot_with.
  repeat apply conj; eexists; (split; [by simplify_map_eq|]); cbn;
    rewrite ?as_optional_str_Ok, ?getattr_member_name; done.
Qed.

Lemma from_json_construct_Ok_inv (data : snapshot) (retval : order) :
  from_json_construct data = Ok retval →
  ∃ s cid eid pair ot tt p a,
    data !! "last_state" = Some (PyStr s)
    ∧ retval = KucoinInFlightOrder_init cid eid pair ot tt p a (Some s).
Proof.
  intros E. unfold from_json_construct in E.
  repeat match goal with
         | H : _ ≫= _ = Ok _ |- _ => apply bind_Ok_inv in H as (? & ? & H)
         end.
  injection E as <-.
  repeat match goal with
         | H : as_str _ = Ok _ |- _ => apply as_str_Ok in H as ->
         | H : getitem _ _ = Ok _ |- _ => apply getitem_Ok in H
         end.
  by do 8 eexists.
Qed.

(** Whatever record the five assignments start from, the record they end
    with has the snapshot's [last_state]. *)
Lemma from_json_restore_last_state (data : snapshot) (retval r : order) :
  from_json_restore data retval = Ok r →
  data !! "last_state" = Some (PyStr (last_state r)).
Proof.
  unfold from_json_restore. intros E.
  repeat match goal with
         | H : _ ≫= _ = Ok _ |- _ => apply bind_Ok_inv in H as (? & ? & H)
         end.
  injection E as <-. cbn.
  repeat match goal with
         | H : as_str _ = Ok _ |- _ => apply as_str_Ok in H as ->
         | H : getitem _ _ = Ok _ |- _ => apply getitem_Ok in H
         end.
  done.
Qed.

(** C4. The factory constructs the record with the snapshot's [last_state]
    as [initial_state], not the default, and assigns [last_state] again
    afterwards.  When it returns: the record built by the constructor already
    had the snapshot's [last_state]; the five assignments took that record
    to the one returned, which has the snapshot's [last_state] too, so that
    the second assignment changed nothing; and the assignment is a real
    overwrite, for from whatever record the five assignments start, they end
    with the snapshot's [last_state]. *)
Theorem from_json_last_state (data : snapshot) (r : order) :
  from_json data = Ok r →
  ∃ s cid eid pair (ot : OrderType) (tt : TradeType) p a,
    data !! "last_state" = Some (PyStr s)
    ∧ from_json_construct data
      = Ok (KucoinInFlightOrder_init cid eid pair ot tt p a (Some s))
    ∧ last_state (KucoinInFlightOrder_init cid eid pair ot tt p a (Some s)) = s
    ∧ last_state r = s
    ∧ set_last_state s r = r
    ∧ from_json_restore data
        (KucoinInFlightOrder_init cid eid pair ot tt p a (Some s)) = Ok r
    ∧ (∀ retval r' : order,
         from_json_restore data retval = Ok r' → last_state r' = s).
Proof.
  intros E.
  pose proof (from_json_Ok_inv _ _ E) as (_&_&_&_&_&_&_&Hls&_).
  destruct Hls as (v & Hls & ->%as_str_Ok).
  unfold from_json in E. apply bind_Ok_inv in E as (retval & Hc & Hr).
  destruct (from_json_construct_Ok_inv _ _ Hc)
    as (s & cid & eid & pair & ot & tt & p & a & Hs & Hretval).
  assert (s = last_state r) as -> by congruence.
  exists (last_state r), cid, eid, pair, ot, tt, p, a.
  split; [done|]. split; [by rewrite Hc, Hretval|].
  split; [done|]. split; [done|]. split; [apply set_last_state_id|].
  split; [by rewrite <- Hretval|].
  intros retval' r' Hr'%from_json_restore_last_state. congruence.
Qed.

(** C8. The factory is atomic: it returns a record whose twelve fields are
    all populated from the snapshot, or it fails; whenever one of the
    decimals read after the construction cannot be converted, it fails. *)
Theorem from_json_atomic (data : snapshot) :
  ((∃ r : order, from_json data = Ok r ∧ populated_from data r)
   ∨ (∃ e, from_json data =@{result order} Raise e))
  ∧ (∀ k e,
       k ∈ ["executed_amount_base"; "executed_amount_quote"; "fee_paid"] →
       getitem data k ≫= Decimal_new = Raise e →
       ∃ e', from_json data =@{result order} Raise e').
Proof.
  split.
  - destruct (from_json data) as [r|e] eqn:E; [left|right; eauto].
    exists r. split; [done|]. by apply from_json_Ok_inv.
  - intros k e Hk Hfail.
    destruct (from_json data) as [r|e'] eqn:E; [|eauto].
    apply from_json_Ok_inv in E as (_&_&_&_&_&_&_&_&Hb&Hq&_&Hp).
    apply reads_bind in Hb, Hq, Hp.
    each_key Hk; congruence.
Qed.

(** C10. [last_state] is not validated.  For every string [s], constructing
    with [initial_state = s] gives a record whose [last_state] is [s]; a
    snapshot that restores still restores when its [last_state] is replaced
    by [s], to the same record with [last_state = s]; and on every record
    whose [last_state] is [s] the four predicates are defined, each true only
    if [s] is one of its literals. *)
Theorem last_state_not_validated (s : string)
    (cid : string) (eid : option string) (pair : string) (ot : OrderType)
    (tt : TradeType) (p a : Decimal) (data : snapshot) (r0 : order) :
  last_state (KucoinInFlightOrder_init cid eid pair ot tt p a (Some s)) = s
  ∧ (from_json data = Ok r0 →
     from_json (<["last_state" := PyStr s]> data) = Ok (set_last_state s r0))
  ∧ (∀ r : order,
       last_state r = s →
       is_done r = String.eqb s "DONE" || String.eqb s "CANCEL"
       ∧ is_failure r = String.eqb s "CANCEL"
       ∧ is_cancelled r = String.eqb s "CANCEL"
       ∧ is_local r = String.eqb s "LOCAL").
Proof.
  split; [reflexivity|]. split.
  - intros E. apply from_json_Ok_inv in E. apply from_json_Ok_intro.
    unfold populated_from, reads in *. cbn.
    destruct E as (?&?&?&?&?&?&?&_&?&?&?&?).
    repeat apply conj; try (by simplify_map_eq).
    exists (PyStr s). by simplify_map_eq.
  - intros r <-.
    by rewrite is_done_eqb, is_failure_eqb, is_cancelled_eqb, is_local_eqb.
Qed.

(** *** Failures *)

Lemma getattr_Raise {E} `{PyEnum E} (s : string) (e : exn) :
  getattr (E := E) s = Raise e → e = AttributeError s.
Proof.
  unfold getattr. destruct (find _ members); [by intros [=]|].
  destruct (find _ class_attributes); by intros [= <-].
Qed.

Lemma Decimal_new_text_malformed (s : string) :
  Decimal_of_str s =@{option Decimal} None →
  Decimal_new (PyStr s) =@{result Decimal} Raise InvalidOperation.
Proof. cbn. by intros ->. Qed.

Lemma Decimal_new_not_None (v : pyval Decimal) :
  v ≠ PyNone →
  (∃ d, Decimal_new v = Ok d) ∨ Decimal_new v = Raise InvalidOperation.
Proof.
  destruct v as [|s|n|d]; cbn; [done| |eauto..].
  destruct (Decimal_of_str s); eauto.
Qed.

(** A snapshot whose [order_type] or [trade_type] text names nothing on its
    enum class, neither a member nor another attribute, is rejected with
    [AttributeError] carrying the offending name.  Of the snapshot's keys
    only those read before the failing lookup need to be there. *)
Lemma from_json_unknown_attribute (data : snapshot) (ot tt : string) :
  is_Some (data !! "client_order_id") →
  is_Some (data !! "exchange_order_id") →
  is_Some (data !! "trading_pair") →
  data !! "order_type" = Some (PyStr ot) →
  data !! "trade_type" = Some (PyStr tt) →
  getattr (E := OrderType) ot = Raise (AttributeError ot)
  ∨ getattr (E := TradeType) tt = Raise (AttributeError tt) →
  from_json data =@{result order} Raise (AttributeError ot)
  ∨ from_json data =@{result order} Raise (AttributeError tt).
Proof.
  intros [v1 H1] [v2 H2] [v3 H3] Hot Htt Hno.
  unfold from_json, from_json_construct, getitem.
  rewrite H1, H2, H3, Hot, Htt. cbn.
  destruct (getattr (E := OrderType) ot) as [m|e] eqn:Eot; cbn.
  - destruct Hno as [Hno|Hno]; [done|]. rewrite Hno. by right.
  - apply getattr_Raise in Eot as ->. by left.
Qed.

(** C5, as the code behaves.  The factory validates [order_type] by
    attribute lookup alone, so it keeps whatever [getattr] resolves: when a
    snapshot restores and its [order_type] is replaced by a text that names
    an attribute of the class that is no member, the snapshot still
    restores, to a record whose [order_type] is that attribute's value and
    no member of the enum. *)
Theorem from_json_keeps_what_getattr_resolves
    (data : snapshot) (r : order) (s : string) (a : OrderType) :
  from_json data = Ok r →
  getattr s = Ok a →
  a ∉ members →
  ∃ r' : order,
    from_json (<["order_type" := PyStr s]> data) = Ok r'
    ∧ order_type r' = a
    ∧ order_type r' ∉ members.
Proof.
  intros E Hs Ha. apply from_json_Ok_inv in E.
  destruct E as (?&?&?&_&?&?&?&?&?&?&?&?).
  exists {| client_order_id := client_order_id r;
            exchange_order_id := exchange_order_id r;
            trading_pair := trading_pair r;
            order_type := a;
            trade_type := trade_type r;
            price := price r;
            amount := amount r;
            executed_amount_base := executed_amount_base r;
            executed_amount_quote := executed_amount_quote r;
            fee_asset := fee_asset r;
            fee_paid := fee_paid r;
            last_state := last_state r |}.
  split; [|by split].
  apply from_json_Ok_intro. unfold populated_from, reads in *. cbn.
  repeat apply conj; try (by simplify_map_eq).
  exists (PyStr s). by simplify_map_eq.
Qed.

(** C6, amended.  A snapshot in which a decimal field holds text that is not
    a decimal never restores; and when the snapshot is otherwise well formed
    the error raised is [InvalidOperation] (the ParseError-class error). *)
Theorem from_json_malformed_decimal (data : snapshot) (k s : string) :
  k ∈ decimal_keys →
  data !! k = Some (PyStr s) →
  Decimal_of_str s =@{option Decimal} None →
  (∀ r : order, from_json data ≠ Ok r)
  ∧ (well_formed_apart_from_decimals (OrderType := OrderType)
       (TradeType := TradeType) data →
     from_json data =@{result order} Raise InvalidOperation).
Proof.
  intros Hk Hs Hbad%Decimal_new_text_malformed. split.
  - intros r E. apply from_json_Ok_inv in E.
    destruct E as (_&_&_&_&_& Hp & Ha &_& Hb & Hq &_& Hf).
    destruct Hp as (? & ? & ?), Ha as (? & ? & ?), Hb as (? & ? & ?),
      Hq as (? & ? & ?), Hf as (? & ? & ?).
    unfold decimal_keys in Hk. each_key Hk; congruence.
  - intros ((cid & Hcid) & (eid & Heid) & (pair & Hpair) & (mo & Hmo)
            & (mt & Hmt) & (ls & Hls) & (fa & Hfa) & Hdec).
    apply reads_bind in Hmo, Hmt. apply getitem_Ok in Hcid, Heid, Hpair, Hls, Hfa.
    assert (∀ k', k' ∈ decimal_keys →
              (∃ d, getitem data k' ≫= Decimal_new = Ok d)
              ∨ getitem data k' ≫= Decimal_new = Raise InvalidOperation) as Hconv.
    { intros k' (v & Hv & Hne)%Hdec. apply getitem_Ok in Hv. rewrite Hv. cbn.
      by apply Decimal_new_not_None. }
    assert (getitem data k ≫= Decimal_new = Raise InvalidOperation) as Hfail.
    { apply getitem_Ok in Hs. by rewrite Hs. }
    unfold from_json, from_json_construct, from_json_restore.
    rewrite Hcid, Heid, Hpair, Hmo, Hmt, Hls, Hfa. cbn.
    destruct (Hconv "price") as [[p Hp]| ->]; [by repeat constructor| |done].
    destruct (Hconv "amount") as [[a Ha]| ->]; [by repeat constructor|
      |by rewrite Hp].
    destruct (Hconv "executed_amount_base") as [[b Hb]| Hb]; [by repeat constructor|
      |by rewrite Hp, Ha; cbn; destruct eid; cbn; rewrite Hb].
    destruct (Hconv "executed_amount_quote") as [[q Hq]| Hq]; [by repeat constructor|
      |by rewrite Hp, Ha; cbn; destruct eid; cbn; rewrite Hb; cbn; rewrite Hq].
    destruct (Hconv "fee_paid") as [[f Hf]| Hf]; [by repeat constructor|
      |by rewrite Hp, Ha; cbn; destruct eid; cbn; rewrite Hb; cbn;
          rewrite Hq; cbn; destruct fa; cbn; rewrite Hf].
    unfold decimal_keys in Hk. each_key Hk; congruence.
Qed.

(** C9, amended.  A mapping that lacks one of the twelve keys never
    restores; and when the rest of the mapping is well formed, so that
    supplying the key would make it restore, the error raised is the
    [KeyError] of that key. *)
Theorem from_json_missing_key (data : snapshot) (k : string) :
  k ∈ snapshot_keys →
  data !! k = None →
  (∀ r : order, from_json data ≠ Ok r)
  ∧ (∀ v (r : order),
       from_json (<[k := v]> data) = Ok r →
       from_json data =@{result order} Raise (KeyError k)).
Proof.
  intros Hk Hnone. split.
  - intros r E. apply from_json_Ok_inv in E.
    destruct E as ((? & ? & _) & (? & ? & _) & (? & ? & _) & (? & ? & _)
                   & (? & ? & _) & (? & ? & _) & (? & ? & _) & (? & ? & _)
                   & (? & ? & _) & (? & ? & _) & (? & ? & _) & (? & ? & _)).
    unfold snapshot_keys in Hk. each_key Hk; congruence.
  - intros v r E. apply from_json_Ok_inv in E.
    destruct E as (Hcid & Heid & Hpair & Hmo & Hmt & Hp & Ha & Hls & Hb & Hq
                   & Hfa & Hf).
    destruct Hcid as (? & Hcid & ->%as_str_Ok).
    destruct Heid as (? & Heid & ->%as_optional_str_Ok).
    destruct Hpair as (? & Hpair & ->%as_str_Ok).
    destruct Hls as (? & Hls & ->%as_str_Ok).
    destruct Hfa as (? & Hfa & ->%as_optional_str_Ok).
    destruct Hmo as (? & Hmo & Hmo'), Hmt as (? & Hmt & Hmt'),
      Hp as (? & Hp & Hp'), Ha as (? & Ha & Ha'), Hb as (? & Hb & Hb'),
      Hq as (? & Hq & Hq'), Hf as (? & Hf & Hf').
    unfold from_json, from_json_construct, from_json_restore, getitem.
    unfold snapshot_keys in Hk.
    each_key Hk;
      rewrite ?lookup_insert_ne in * by done;
      rewrite Hnone;
      repeat first
        [ progress cbn
        | rewrite Hcid | rewrite Heid | rewrite Hpair | rewrite Hmo
        | rewrite Hmo' | rewrite Hmt | rewrite Hmt' | rewrite Hp | rewrite Hp'
        | rewrite Ha | rewrite Ha' | rewrite Hls | rewrite Hb | rewrite Hb'
        | rewrite Hq | rewrite Hq' | rewrite Hfa | rewrite Hf | rewrite Hf'
        | match goal with
          | |- context [as_optional_str (of_optional_str ?o)] => destruct o
          end ];
      reflexivity.
Qed.

End Properties.

(** * The scenario, checked *)

Lemma OrderType_lawful : EnumLawful events.OrderType.
Proof.
  intros m1 m2 H1 H2. cbn in H1, H2. each_key H1; each_key H2; done.
Qed.

Lemma TradeType_lawful : EnumLawful events.TradeType.
Proof.
  intros m1 m2 H1 H2. cbn in H1, H2. each_key H1; each_key H2; done.
Qed.

(** The texts of the scenario are read as the decimals they denote, and
    ["abc"] is rejected. *)
Example Decimal_of_str_examples :
  map decimal.of_str ["10.00"; "1.5"; "0.01"; "-2"; "1E+3"; "abc"; ""]
  = [Some (decimal.Finite false 1000 (-2)); Some (decimal.Finite false 15 (-1));
     Some (decimal.Finite false 1 (-2)); Some (decimal.Finite true 2 0);
     Some (decimal.Finite false 1 3); None; None].
Proof. reflexivity. Qed.

(** A freshly built order is local; once ["DONE"] it is done and no failure;
    once ["CANCEL"] it is done, a failure and cancelled. *)
Example scenario_predicates :
  is_local fresh_order = true
  ∧ is_done (set_last_state "DONE" fresh_order) = true
  ∧ is_failure (set_last_state "DONE" fresh_order) = false
  ∧ is_done (set_last_state "CANCEL" fresh_order) = true
  ∧ is_failure (set_last_state "CANCEL" fresh_order) = true
  ∧ is_cancelled (set_last_state "CANCEL" fresh_order) = true.
Proof. by vm_compute. Qed.

(** The snapshot written as text restores to the order it was taken of. *)
Example from_json_example_snapshot :
  from_json example_snapshot = Ok example_order.
Proof. reflexivity. Qed.

(** An unknown order type and a malformed price are each rejected, with
    [AttributeError] and [InvalidOperation]. *)
Example from_json_rejections :
  from_json snapshot_unknown_order_type
    =@{result Order} Raise (AttributeError "NOT_A_TYPE")
  ∧ from_json snapshot_malformed_price =@{result Order} Raise InvalidOperation.
Proof. by vm_compute. Qed.

(** C1 on the updated order, its decimals stored as they are. *)
Lemma from_json_round_trip_witness :
  from_json (snapshot_with PyDec example_order) = Ok example_order.
Proof.
  apply (from_json_round_trip PyDec example_order).
  - exact OrderType_lawful.
  - exact TradeType_lawful.
  - repeat constructor.
  - repeat constructor.
  - reflexivity.
Defined.

(** C4 on the snapshot of the scenario. *)
Lemma from_json_last_state_witness :
  ∃ s cid eid pair (ot : events.OrderType) (tt : events.TradeType) p a,
    example_snapshot !! "last_state" = Some (PyStr s)
    ∧ from_json_construct example_snapshot
      = Ok (KucoinInFlightOrder_init cid eid pair ot tt p a (Some s))
    ∧ last_state (KucoinInFlightOrder_init cid eid pair ot tt p a (Some s)) = s
    ∧ last_state example_order = s
    ∧ set_last_state s example_order = example_order
    ∧ from_json_restore example_snapshot
        (KucoinInFlightOrder_init cid eid pair ot tt p a (Some s))
      = Ok example_order
    ∧ (∀ retval r' : Order,
         from_json_restore example_snapshot retval = Ok r' →
         last_state r' = s).
Proof.
  apply (from_json_last_state example_snapshot example_order).
  reflexivity.
Defined.

(** C5 at the order type ["__doc__"]: every class has a [__doc__], the
    lookup succeeds and a record comes back whose order type is no member. *)
Lemma from_json_keeps_what_getattr_resolves_witness :
  ∃ r' : Order,
    from_json (<["order_type" := PyStr "__doc__"]> example_snapshot) = Ok r'
    ∧ order_type r' = events.OrderType_attribute "__doc__"
    ∧ order_type r' ∉ members.
Proof.
  apply (from_json_keeps_what_getattr_resolves example_snapshot example_order
           "__doc__" (events.OrderType_attribute "__doc__")).
  - reflexivity.
  - reflexivity.
  - intros Hin. cbn in Hin.
    repeat (apply elem_of_cons in Hin as [Hin|Hin]; [discriminate Hin|]).
    by apply elem_of_nil in Hin.
Defined.

(** C6 on the snapshot with the fee ["abc"]. *)
Lemma from_json_malformed_decimal_witness :
  (∀ r : Order, from_json snapshot_malformed_fee ≠ Ok r)
  ∧ from_json snapshot_malformed_fee =@{result Order} Raise InvalidOperation.
Proof.
  destruct (from_json_malformed_decimal (OrderType := events.OrderType)
              (TradeType := events.TradeType)
              snapshot_malformed_fee "fee_paid" "abc") as [Hnever Hraise].
  - by repeat constructor.
  - reflexivity.
  - reflexivity.
  - split; [exact Hnever|]. apply Hraise.
    repeat apply conj.
    + by exists "C1".
    + by exists None.
    + by exists "ETH-USDT".
    + exists events.LIMIT, (PyStr "LIMIT"). by split.
    + exists events.BUY, (PyStr "BUY"). by split.
    + by exists "partial-filled".
    + by exists None.
    + intros k Hk. unfold decimal_keys in Hk.
      each_key Hk; by eexists; split; [reflexivity|].
Defined.

(** C6 as first stated fails here: with an unknown order type and a
    malformed price, the error is the one of the order type, which is looked
    up first. *)
Lemma from_json_malformed_decimal_after_unknown_enum :
  <["price" := PyStr "abc"]> snapshot_unknown_order_type !! "price"
    = Some (PyStr "abc")
  ∧ Decimal_of_str "abc" =@{option decimal.Decimal} None
  ∧ from_json (<["price" := PyStr "abc"]> snapshot_unknown_order_type)
    =@{result Order} Raise (AttributeError "NOT_A_TYPE")
  ∧ from_json (<["price" := PyStr "abc"]> snapshot_unknown_order_type)
    ≠@{result Order} Raise InvalidOperation.
Proof. by vm_compute. Qed.

(** C8 on the snapshot of the scenario, which restores, and on the one with
    the fee ["abc"], which fails after the constructor has returned. *)
Lemma from_json_atomic_witness :
  (∃ r : Order, from_json example_snapshot = Ok r
                ∧ populated_from example_snapshot r)
  ∧ (∃ retval : Order, from_json_construct snapshot_malformed_fee = Ok retval)
  ∧ ∃ e, from_json snapshot_malformed_fee =@{result Order} Raise e.
Proof.
  split; [|split; [by eexists|]].
  - destruct (proj1 (from_json_atomic (OrderType := events.OrderType)
                       (TradeType := events.TradeType) example_snapshot))
      as [Hr|[e He]]; [exact Hr|discriminate He].
  - apply (proj2 (from_json_atomic snapshot_malformed_fee)
             "fee_paid" InvalidOperation).
    + by repeat constructor.
    + reflexivity.
Defined.

(** C9 on the snapshot without its fee. *)
Lemma from_json_missing_key_witness :
  (∀ r : Order, from_json snapshot_without_fee ≠ Ok r)
  ∧ from_json snapshot_without_fee =@{result Order} Raise (KeyError "fee_paid").
Proof.
  destruct (from_json_missing_key (OrderType := events.OrderType)
              (TradeType := events.TradeType)
              snapshot_without_fee "fee_paid") as [Hnever Hraise].
  - by repeat constructor.
  - reflexivity.
  - split; [exact Hnever|].
    apply (Hraise (PyStr "0.01") example_order). reflexivity.
Defined.

(** C9 as first stated fails here: without a price and with an unknown order
    type, the error is the one of the order type, which is looked up before
    the price. *)
Lemma from_json_missing_key_after_unknown_enum :
  delete "price" snapshot_unknown_order_type !! "price" = None
  ∧ from_json (delete "price" snapshot_unknown_order_type)
    =@{result Order} Raise (AttributeError "NOT_A_TYPE")
  ∧ from_json (delete "price" snapshot_unknown_order_type)
    ≠@{result Order} Raise (KeyError "price").
Proof. by vm_compute. Qed.

(** C10 with a state outside the vocabulary. *)
Lemma last_state_not_validated_witness :
  last_state (KucoinInFlightOrder_init "C1" None "ETH-USDT" events.LIMIT
                events.BUY (decimal.of_int 10) (decimal.of_int 2)
                (Some "no-such-state")) = "no-such-state"
  ∧ from_json (<["last_state" := PyStr "no-such-state"]> example_snapshot)
    = Ok (set_last_state "no-such-state" example_order)
  ∧ is_done (set_last_state "no-such-state" example_order) = false
  ∧ is_failure (set_last_state "no-such-state" example_order) = false
  ∧ is_cancelled (set_last_state "no-such-state" example_order) = false
  ∧ is_local (set_last_state "no-such-state" example_order) = false.
Proof.
  destruct (last_state_not_validated "no-such-state" "C1" None "ETH-USDT"
              events.LIMIT events.BUY (decimal.of_int 10) (decimal.of_int 2)
              example_snapshot example_order)
    as (Hbuilt & Hrestored & Hpred).
  split; [exact Hbuilt|]. split; [apply Hrestored; reflexivity|].
  destruct (Hpred (set_last_state "no-such-state" example_order) eq_refl)
    as (Hd & Hf & Hc & Hl).
  rewrite Hd, Hf, Hc, Hl. by vm_compute.
Defined.

(** * Further properties of the factory and the predicates *)

Section Coverage.
Context {OrderType TradeType Decimal : Type}.
Context {OrderType_py : PyEnum OrderType} {TradeType_py : PyEnum TradeType}.
Context {Decimal_py : PyDecimal Decimal}.

Local Abbreviation order := (KucoinInFlightOrder OrderType TradeType Decimal).
Local Abbreviation snapshot := (gmap string (pyval Decimal)).

(** X1. The factory reads the twelve keys and nothing else: two mappings
    that agree on them give the same result, record or error. *)
Theorem from_json_reads_only_snapshot_keys (data data' : snapshot) :
  (∀ k, k ∈ snapshot_keys → data !! k = data' !! k) →
  from_json data =@{result order} from_json data'.
Proof.
  intros Hagree.
  unfold from_json, from_json_construct, from_json_restore, getitem.
  by rewrite !Hagree by (unfold snapshot_keys; repeat constructor).
Qed.

(** X6. How the predicates relate: a failed or cancelled order is done, and
    a local order is neither done, failed nor cancelled. *)
Theorem predicates_consistent (self : order) :
  (is_failure self = true → is_done self = true)
  ∧ (is_cancelled self = true → is_done self = true)
  ∧ (is_local self = true →
     is_done self = false ∧ is_failure self = false
     ∧ is_cancelled self = false).
Proof.
  rewrite is_done_eqb, is_failure_eqb, is_cancelled_eqb, is_local_eqb.
  split; [|split].
  - intros ->. apply orb_true_r.
  - intros ->. apply orb_true_r.
  - by intros ->%String.eqb_eq.
Qed.

(** X7. Updating a snapshot and assigning to the restored record commute:
    when a snapshot restores to [r], the snapshot with one of the four keys
    read after the construction replaced restores to [r] with that field
    assigned. *)
Theorem from_json_update_commutes (data : snapshot) (r : order) :
  from_json data = Ok r →
  (∀ v d, Decimal_new v = Ok d →
     from_json (<["executed_amount_base" := v]> data)
     = Ok (set_executed_amount_base d r))
  ∧ (∀ v d, Decimal_new v = Ok d →
     from_json (<["executed_amount_quote" := v]> data)
     = Ok (set_executed_amount_quote d r))
  ∧ (∀ o, from_json (<["fee_asset" := of_optional_str o]> data)
          = Ok (set_fee_asset o r))
  ∧ (∀ v d, Decimal_new v = Ok d →
     from_json (<["fee_paid" := v]> data) = Ok (set_fee_paid d r)).
Proof.
  intros E. apply from_json_Ok_inv in E.
  destruct E as (?&?&?&?&?&?&?&?&?&?&?&?).
  repeat apply conj; intros; apply from_json_Ok_intro;
    unfold populated_from, reads in *; cbn;
    repeat apply conj; try (by simplify_map_eq);
    eexists; (split; [by simplify_map_eq|]); try done;
    by apply as_optional_str_Ok.
Qed.

(** X8. The factory has no other grounds for rejection: a snapshot that is
    well formed apart from its decimals, and whose five decimal fields
    convert, restores. *)
Theorem from_json_accepts_well_formed (data : snapshot) :
  well_formed_apart_from_decimals (OrderType := OrderType)
    (TradeType := TradeType) data →
  (∀ k, k ∈ decimal_keys →
     ∃ v d, data !! k = Some v ∧ Decimal_new v = Ok d) →
  ∃ r : order, from_json data = Ok r.
Proof.
  intros ((cid & Hcid) & (eid & Heid) & (pair & Hpair) & (mo & Hmo)
          & (mt & Hmt) & (ls & Hls) & (fa & Hfa) & _) Hdec.
  destruct (Hdec "price") as (vp & p & Hp & Hp'); [by repeat constructor|].
  destruct (Hdec "amount") as (va & a & Ha & Ha'); [by repeat constructor|].
  destruct (Hdec "executed_amount_base") as (vb & b & Hb & Hb');
    [by repeat constructor|].
  destruct (Hdec "executed_amount_quote") as (vq & q & Hq & Hq');
    [by repeat constructor|].
  destruct (Hdec "fee_paid") as (vf & f & Hf & Hf'); [by repeat constructor|].
  exists {| client_order_id := cid; exchange_order_id := eid;
            trading_pair := pair; order_type := mo; trade_type := mt;
            price := p; amount := a; executed_amount_base := b;
            executed_amount_quote := q; fee_asset := fa; fee_paid := f;
            last_state := ls |}.
  apply from_json_Ok_intro. unfold populated_from, reads. cbn.
  repeat apply conj; try done; eexists; (split; [eassumption|]); try done;
    by apply as_optional_str_Ok.
Qed.

(** *** What an error tells the caller *)

Lemma bind_Raise_inv {A B} (m : result A) (f : A → result B) (e : exn) :
  m ≫= f = Raise e → m = Raise e ∨ ∃ a, m = Ok a ∧ f a = Raise e.
Proof. destruct m as [a|e']; cbn; [eauto|]. intros [= ->]. by left. Qed.

Lemma getitem_Raise_inv (data : snapshot) (k : string) (e : exn) :
  getitem data k = Raise e → data !! k = None ∧ e = KeyError k.
Proof. unfold getitem. destruct (data !! k); by intros [= <-]. Qed.

Lemma getattr_val_Raise_inv {E} `{PyEnum E} (v : pyval Decimal) (e : exn) :
  getattr_val (E := E) v = Raise e →
  e = TypeError
  ∨ ∃ s, v = PyStr s ∧ e = AttributeError s
         ∧ ∀ m : E, m ∈ members → member_name m ≠ s.
Proof.
  destruct v as [|s|n|d]; cbn; try (intros [= <-]; by left).
  unfold getattr. destruct (find _ members) eqn:Hfind; [by intros [=]|].
  destruct (find _ class_attributes); intros [= <-].
  right. exists s. repeat split. intros m Hin%list_elem_of_In Heq.
  apply find_none with (x := m) in Hfind; [|done].
  by rewrite Heq, String.eqb_refl in Hfind.
Qed.

Lemma Decimal_new_Raise_inv (v : pyval Decimal) (e : exn) :
  Decimal_new v = Raise e →
  e = TypeError
  ∨ ∃ s, v = PyStr s ∧ e = InvalidOperation
         ∧ Decimal_of_str s =@{option Decimal} None.
Proof.
  destruct v as [|s|n|d]; cbn; try (intros [= <-]; by left); try done.
  destruct (Decimal_of_str s) eqn:Hs; intros [= <-]. right. by exists s.
Qed.

Lemma as_str_Raise_inv (v : pyval Decimal) (e : exn) :
  as_str v = Raise e → e = TypeError.
Proof. destruct v; cbn; by intros [= <-]. Qed.

Lemma as_optional_str_Raise_inv (v : pyval Decimal) (e : exn) :
  as_optional_str v = Raise e → e = TypeError.
Proof. destruct v; cbn; by intros [= <-]. Qed.

(** Every failure of the factory is the failure of one lookup or of one
    conversion of the value of one key. *)
Lemma from_json_Raise_inv (data : snapshot) (e : exn) :
  from_json data =@{result order} Raise e →
  ∃ k, k ∈ snapshot_keys
       ∧ (data !! k = None ∧ e = KeyError k
          ∨ ∃ v, data !! k = Some v
                 ∧ (k = "order_type"
                    ∧ getattr_val (E := OrderType) v = Raise e
                    ∨ k = "trade_type"
                      ∧ getattr_val (E := TradeType) v = Raise e
                    ∨ k ∈ decimal_keys ∧ Decimal_new v = Raise e
                    ∨ e = TypeError)).
Proof.
  unfold from_json, from_json_construct, from_json_restore. intros E.
  repeat match goal with
         | H : _ ≫= _ = Raise _ |- _ =>
             apply bind_Raise_inv in H as [H|(? & ? & H)]
         | H : _ ≫= _ = Ok _ |- _ => apply bind_Ok_inv in H as (? & ? & H)
         | H : getitem _ _ = Ok _ |- _ => apply getitem_Ok in H
         | H : getitem _ ?k = Raise _ |- _ =>
             apply getitem_Raise_inv in H as [H ->]; exists k;
             split; [by repeat constructor|by left]
         | H : as_str _ = Raise _ |- _ => apply as_str_Raise_inv in H as ->
         | H : as_optional_str _ = Raise _ |- _ =>
             apply as_optional_str_Raise_inv in H as ->
         | H : mret _ = Raise _ |- _ => discriminate H
         end.
  all: try (match goal with
            | H : _ !! ?k = Some ?v, H' : getattr_val ?v = Raise _ |- _ =>
                exists k; split; [by repeat constructor|];
                right; exists v; split; [exact H|]; by eauto
            | H : _ !! ?k = Some ?v, H' : Decimal_new ?v = Raise _ |- _ =>
                exists k; split; [by repeat constructor|];
                right; exists v; split; [exact H|];
                do 2 right; left; split; [by repeat constructor|exact H']
            end).
  all: match goal with
       | H : _ !! ?k = Some ?v |- _ =>
           exists k; split; [by repeat constructor|];
           right; exists v; split; [exact H|]; by do 3 right
       end.
Qed.

(** X2. A [KeyError] is raised only for one of the twelve keys, and only
    when the mapping lacks it. *)
Theorem from_json_KeyError_sound (data : snapshot) (k : string) :
  from_json data =@{result order} Raise (KeyError k) →
  k ∈ snapshot_keys ∧ data !! k = None.
Proof.
  intros (k' & Hk' & [[Hnone [= ->]]|(v & Hv & Hconv)])%from_json_Raise_inv;
    [done|].
  destruct Hconv as [[_ Hc]|[[_ Hc]|[[_ Hc]|Hc]]]; [..|discriminate Hc].
  - apply getattr_val_Raise_inv in Hc as [Hc|(? & _ & Hc & _)]; discriminate Hc.
  - apply getattr_val_Raise_inv in Hc as [Hc|(? & _ & Hc & _)]; discriminate Hc.
  - apply Decimal_new_Raise_inv in Hc as [Hc|(? & _ & Hc & _)]; discriminate Hc.
Qed.

(** X3. An [AttributeError] is raised only for the text held under
    [order_type] or [trade_type], and only when that text names no member of
    the enum; the error carries the text. *)
Theorem from_json_AttributeError_sound (data : snapshot) (s : string) :
  from_json data =@{result order} Raise (AttributeError s) →
  (data !! "order_type" = Some (PyStr s)
   ∧ ∀ m : OrderType, m ∈ members → member_name m ≠ s)
  ∨ (data !! "trade_type" = Some (PyStr s)
     ∧ ∀ m : TradeType, m ∈ members → member_name m ≠ s).
Proof.
  intros (k & Hk & [[_ [=]]|(v & Hv & Hconv)])%from_json_Raise_inv.
  destruct Hconv as [[-> Hc]|[[-> Hc]|[[_ Hc]|Hc]]]; [..|discriminate Hc].
  - apply getattr_val_Raise_inv in Hc as [[=]|(s' & -> & [= <-] & Hno)].
    by left.
  - apply getattr_val_Raise_inv in Hc as [[=]|(s' & -> & [= <-] & Hno)].
    by right.
  - apply Decimal_new_Raise_inv in Hc as [Hc|(? & _ & Hc & _)]; discriminate Hc.
Qed.

(** X4. An [InvalidOperation] is raised only when one of the five decimal
    keys holds text that is no decimal. *)
Theorem from_json_InvalidOperation_sound (data : snapshot) :
  from_json data =@{result order} Raise InvalidOperation →
  ∃ k s, k ∈ decimal_keys ∧ data !! k = Some (PyStr s)
         ∧ Decimal_of_str s =@{option Decimal} None.
Proof.
  intros (k & Hk & [[_ [=]]|(v & Hv & Hconv)])%from_json_Raise_inv.
  destruct Hconv as [[_ Hc]|[[_ Hc]|[[Hdec Hc]|Hc]]]; [..|discriminate Hc].
  - apply getattr_val_Raise_inv in Hc as [Hc|(? & _ & Hc & _)]; discriminate Hc.
  - apply getattr_val_Raise_inv in Hc as [Hc|(? & _ & Hc & _)]; discriminate Hc.
  - apply Decimal_new_Raise_inv in Hc as [[=]|(s & -> & _ & Hs)].
    by exists k, s.
Qed.

(** *** The first failing argument decides *)

Lemma accepts_Ok_inv {A} (conv : pyval Decimal → result A)
    (data : snapshot) (k : string) :
  run_step data (k, accepts conv) = Ok () →
  ∃ x, getitem data k ≫= conv = Ok x.
Proof.
  unfold run_step, accepts. cbn.
  intros (v & Hv & (x & Hx & _)%bind_Ok_inv)%bind_Ok_inv.
  exists x. by rewrite Hv.
Qed.

Lemma accepts_Raise_inv {A} (conv : pyval Decimal → result A)
    (data : snapshot) (k : string) (e : exn) :
  run_step data (k, accepts conv) = Raise e →
  getitem data k ≫= conv = Raise e.
Proof.
  unfold run_step, accepts. cbn.
  intros [Hv|(v & Hv & [Hx|(x & _ & [=])]%bind_Raise_inv)]%bind_Raise_inv.
  - by rewrite Hv.
  - by rewrite Hv.
Qed.

Lemma lookup_Ok_inv (data : snapshot) (k : string) :
  run_step data (k, λ _, mret ()) = Ok () → ∃ v, getitem data k = Ok v.
Proof.
  unfold run_step. cbn. intros (v & Hv & _)%bind_Ok_inv. eauto.
Qed.

Lemma lookup_Raise_inv (data : snapshot) (k : string) (e : exn) :
  run_step data (k, λ _, mret ()) = Raise e → getitem data k = Raise e.
Proof.
  unfold run_step. cbn. by intros [Hv|(v & _ & [=])]%bind_Raise_inv.
Qed.

(** X5. The arguments of the constructor call are evaluated in the order
    written, and the first one that fails decides the error: when every
    argument before one succeeds and that one raises [e], the factory raises
    [e], whatever the rest of the mapping holds. *)
Theorem from_json_first_failing_argument (data : snapshot)
    (before after : list (string * (pyval Decimal → result unit)))
    (step : string * (pyval Decimal → result unit)) (e : exn) :
  argument_steps (OrderType := OrderType) (TradeType := TradeType)
    = (before ++ step :: after)%list →
  Forall (λ s, run_step data s = Ok ()) before →
  run_step data step = Raise e →
  from_json data =@{result order} Raise e.
Proof.
  intros Hsplit Hbefore Hstep. unfold argument_steps in Hsplit.
  repeat (destruct before as [|? before];
          [injection Hsplit as <- _|
           injection Hsplit as <- Hsplit;
           apply Forall_cons in Hbefore as [? Hbefore]]);
    try (by destruct before).
  all: repeat match goal with
         | H : run_step _ (_, accepts _) = Ok () |- _ =>
             apply accepts_Ok_inv in H as [? H]
         | H : run_step _ (_, accepts _) = Raise _ |- _ =>
             apply accepts_Raise_inv in H
         | H : run_step _ (_, _) = Ok () |- _ =>
             apply lookup_Ok_inv in H as [? H]
         | H : run_step _ (_, _) = Raise _ |- _ =>
             apply lookup_Raise_inv in H
         end.
  all: unfold from_json, from_json_construct.
  all: repeat match goal with
         | H : _ = Ok _ |- _ => rewrite H; clear H; cbn
         end.
  all: by rewrite Hstep.
Qed.

End Coverage.

(** * The further properties on the scenario *)

(** X1 with a key the factory does not know added to the snapshot. *)
Lemma from_json_reads_only_snapshot_keys_witness :
  from_json (<["note" := PyStr "kept by hand"]> example_snapshot)
  = Ok example_order.
Proof.
  rewrite <- (from_json_reads_only_snapshot_keys (OrderType := events.OrderType)
                (TradeType := events.TradeType) example_snapshot
                (<["note" := PyStr "kept by hand"]> example_snapshot)).
  - reflexivity.
  - intros k Hk. unfold snapshot_keys in Hk. each_key Hk; reflexivity.
Defined.

(** X2 on the snapshot without its fee. *)
Lemma from_json_KeyError_sound_witness :
  "fee_paid" ∈ snapshot_keys ∧ snapshot_without_fee !! "fee_paid" = None.
Proof.
  apply (from_json_KeyError_sound (OrderType := events.OrderType)
           (TradeType := events.TradeType) snapshot_without_fee "fee_paid").
  reflexivity.
Defined.

(** X3 on the snapshot with the order type ["NOT_A_TYPE"]. *)
Lemma from_json_AttributeError_sound_witness :
  (snapshot_unknown_order_type !! "order_type" = Some (PyStr "NOT_A_TYPE")
   ∧ ∀ m : events.OrderType, m ∈ members → member_name m ≠ "NOT_A_TYPE")
  ∨ (snapshot_unknown_order_type !! "trade_type" = Some (PyStr "NOT_A_TYPE")
     ∧ ∀ m : events.TradeType, m ∈ members → member_name m ≠ "NOT_A_TYPE").
Proof.
  apply (from_json_AttributeError_sound snapshot_unknown_order_type
           "NOT_A_TYPE").
  reflexivity.
Defined.

(** X4 on the snapshot with the fee ["abc"]. *)
Lemma from_json_InvalidOperation_sound_witness :
  ∃ k s, k ∈ decimal_keys ∧ snapshot_malformed_fee !! k = Some (PyStr s)
         ∧ Decimal_of_str s =@{option decimal.Decimal} None.
Proof.
  apply (from_json_InvalidOperation_sound (OrderType := events.OrderType)
           (TradeType := events.TradeType) snapshot_malformed_fee).
  reflexivity.
Defined.

(** X5 on a mapping with three defects: a malformed price, no amount and a
    malformed fee.  The price is the first of them to be evaluated. *)
Lemma from_json_first_failing_argument_witness :
  from_json (<["price" := PyStr "abc"]>
               (delete "amount" snapshot_malformed_fee))
  =@{result Order} Raise InvalidOperation.
Proof.
  apply (from_json_first_failing_argument (OrderType := events.OrderType)
           (TradeType := events.TradeType)
           (<["price" := PyStr "abc"]> (delete "amount" snapshot_malformed_fee))
           (take 5 (argument_steps (OrderType := events.OrderType)
                      (TradeType := events.TradeType)))
           (drop 6 (argument_steps (OrderType := events.OrderType)
                      (TradeType := events.TradeType)))
           ("price", accepts Decimal_new)).
  - reflexivity.
  - unfold argument_steps. cbn [take].
    repeat (apply List.Forall_cons; [vm_compute; reflexivity|]).
    apply List.Forall_nil.
  - vm_compute. reflexivity.
Defined.

(** X7 with a further fill written into the snapshot. *)
Lemma from_json_update_commutes_witness :
  from_json (<["executed_amount_base" := PyStr "2.0"]> example_snapshot)
  = Ok (set_executed_amount_base (decimal.Finite false 20 (-1)) example_order).
Proof.
  destruct (from_json_update_commutes example_snapshot example_order
              from_json_example_snapshot) as (Hbase & _).
  apply Hbase. vm_compute. reflexivity.
Defined.

(** X8 on the snapshot of the scenario. *)
Lemma from_json_accepts_well_formed_witness :
  ∃ r : Order, from_json example_snapshot = Ok r.
Proof.
  apply (from_json_accepts_well_formed example_snapshot).
  - repeat apply conj.
    + by exists "C1".
    + by exists None.
    + by exists "ETH-USDT".
    + exists events.LIMIT, (PyStr "LIMIT"). by split.
    + exists events.BUY, (PyStr "BUY"). by split.
    + by exists "partial-filled".
    + by exists None.
    + intros k Hk. unfold decimal_keys in Hk.
      each_key Hk; by eexists; split; [reflexivity|].
  - intros k Hk. unfold decimal_keys in Hk.
    each_key Hk; by do 2 eexists; split; reflexivity.
Defined.
